(** * The calculation endpoint of the GitHub Actions demo application

    A shallow embedding of [calculate] from [src/app.py]: the handler of
    [POST /api/calculate].  The handler receives what [request.get_json()]
    evaluates to, validates it, folds the numbers with one of three
    reductions and answers with a JSON payload and a status code; every
    exception raised on the way is caught at the end of the function and
    turned into the answer 500.

    Python values are a tagged union, Python integers are [Z] (they are
    unbounded), Python floats are IEEE 754 binary64 numbers in the
    executable specification [spec_float] of the standard library, and the
    exceptions of the interpreter (an integer too large for a float, an
    integer too long to print, a subscript on a value that has none) are
    results of an error monad that also carries the records written by the
    logger.  The float total of the interpreter's built-in [sum], which
    depends on its version, is a parameter of the handler. *)

From Stdlib Require Import ZArith List String Bool Lia Permutation.
From Stdlib Require Import Floats.SpecFloat.
Import ListNotations.

Local Open Scope string_scope.
Local Open Scope Z_scope.
Local Open Scope list_scope.

(** ** Python values *)

Module Py.

(** What [json.loads] builds, and what the handler computes with.  A
    decoded object is a [dict] with string keys, kept in insertion order. *)
#[warnings="-register-all"]
Inductive value : Type :=
| PNone
| PBool (b : bool)
| PInt (z : Z)
| PFloat (f : spec_float)
| PStr (s : string)
| PList (l : list value)
| PDict (d : list (string * value)).

(** The exceptions the handler can meet; all are subclasses of
    [Exception].  [HTTPException] stands for what the framework raises
    from [request.get_json()] (wrong media type, malformed body). *)
Inductive exn : Type :=
| TypeError
| KeyError
| AttributeError
| OverflowError
| ZeroDivisionError
| ValueError
| HTTPException.

(** A computation that returns or raises. *)
Definition Exc (A : Type) : Type := (exn + A)%type.

Definition raise {A : Type} (e : exn) : Exc A := inl e.
Definition ok {A : Type} (a : A) : Exc A := inr a.

Definition ebind {A B : Type} (c : Exc A) (k : A -> Exc B) : Exc B :=
  match c with
  | inl e => inl e
  | inr a => k a
  end.

(** *** binary64 *)

Definition prec : Z := 53.
Definition emax : Z := 1024.

(** The float nearest to [m * 2^e] (ties to even). *)
Definition float_lit (m e : Z) : spec_float := binary_normalize prec emax m e false.

Definition fadd : spec_float -> spec_float -> spec_float := SFadd prec emax.
Definition fmul : spec_float -> spec_float -> spec_float := SFmul prec emax.
Definition fdiv : spec_float -> spec_float -> spec_float := SFdiv prec emax.

Definition is_fzero (f : spec_float) : bool :=
  match f with
  | S754_zero _ => true
  | _ => false
  end.

(** [float(z)] for an [int]: rounded to nearest, [OverflowError] when the
    rounded value is beyond the largest finite float. *)
Definition int_to_float (z : Z) : Exc spec_float :=
  match binary_normalize prec emax z 0 false with
  | S754_infinity _ => raise OverflowError
  | f => ok f
  end.

(** [a / b] for two [int]s: the float nearest to the exact quotient.  The
    quotient is computed with at least 55 significant bits and one more bit
    that tells whether the remainder is zero, then rounded once. *)
Definition int_true_divide (a b : Z) : Exc spec_float :=
  if b =? 0 then raise ZeroDivisionError
  else
    let neg := xorb (a <? 0) (b <? 0) in
    if a =? 0 then ok (S754_zero neg)
    else
      let s := Z.max 0 (Zdigits2 (Z.abs b) - Zdigits2 (Z.abs a) + 56) in
      let n := Z.abs a * 2 ^ s in
      let q := n / Z.abs b in
      let sticky := if n mod Z.abs b =? 0 then 0 else 1 in
      let m := 2 * q + sticky in
      match binary_normalize prec emax (if neg then - m else m) (- s - 1) neg with
      | S754_infinity _ => raise OverflowError
      | f => ok f
      end.

(** *** Truth value, type tests, equality with a string *)

(** [bool(v)], as [not v] uses it. *)
Definition truthy (v : value) : bool :=
  match v with
  | PNone => false
  | PBool b => b
  | PInt z => negb (z =? 0)
  | PFloat f => negb (is_fzero f)
  | PStr s => negb (String.eqb s "")
  | PList l => match l with [] => false | _ :: _ => true end
  | PDict d => match d with [] => false | _ :: _ => true end
  end.

(** [isinstance(v, list)] *)
Definition isinstance_list (v : value) : bool :=
  match v with
  | PList _ => true
  | _ => false
  end.

(** [isinstance(v, (int, float))]: [bool] is a subclass of [int]. *)
Definition isinstance_int_float (v : value) : bool :=
  match v with
  | PBool _ | PInt _ | PFloat _ => true
  | _ => false
  end.

(** [v == s] for a string literal [s]: only a [str] equals a [str]. *)
Definition eq_str (v : value) (s : string) : bool :=
  match v with
  | PStr t => String.eqb t s
  | _ => false
  end.

(** The items of a list (nothing for another value). *)
Definition items (v : value) : list value :=
  match v with
  | PList l => l
  | _ => []
  end.

(** *** Containers *)

Fixpoint lookup (k : string) (d : list (string * value)) : option value :=
  match d with
  | [] => None
  | (k', v) :: d' => if String.eqb k' k then Some v else lookup k d'
  end.

(** [s in t] for two strings: [s] occurs in [t]. *)
Definition occurs (s t : string) : bool :=
  match String.index 0 s t with
  | Some _ => true
  | None => false
  end.

(** [k in v] for a string literal [k]: key of a dict, item of a list,
    substring of a string; the other values are not iterable. *)
Definition contains (v : value) (k : string) : Exc bool :=
  match v with
  | PDict d => ok (match lookup k d with Some _ => true | None => false end)
  | PList l => ok (existsb (fun x => eq_str x k) l)
  | PStr t => ok (occurs k t)
  | PNone | PBool _ | PInt _ | PFloat _ => raise TypeError
  end.

(** [v[k]] for a string literal [k]. *)
Definition getitem (v : value) (k : string) : Exc value :=
  match v with
  | PDict d => match lookup k d with Some x => ok x | None => raise KeyError end
  | _ => raise TypeError
  end.

(** [v.get(k, default)] *)
Definition get (v : value) (k : string) (default : value) : Exc value :=
  match v with
  | PDict d => ok (match lookup k d with Some x => x | None => default end)
  | _ => raise AttributeError
  end.

(** *** Arithmetic on [int], [bool] and [float] *)

Inductive num : Type :=
| NInt (z : Z)
| NFloat (f : spec_float).

(** The operand of an arithmetic operator; a [bool] counts as 0 or 1. *)
Definition as_num (v : value) : Exc num :=
  match v with
  | PBool b => ok (NInt (if b then 1 else 0))
  | PInt z => ok (NInt z)
  | PFloat f => ok (NFloat f)
  | _ => raise TypeError
  end.

Definition to_float (n : num) : Exc spec_float :=
  match n with
  | NInt z => int_to_float z
  | NFloat f => ok f
  end.

(** A binary operator of the numeric tower: exact on two integers, on
    floats after converting an integer operand when the other is a float. *)
Definition arith (iop : Z -> Z -> Z) (fop : spec_float -> spec_float -> spec_float)
  (a b : value) : Exc value :=
  ebind (as_num a) (fun x =>
  ebind (as_num b) (fun y =>
  match x, y with
  | NInt i, NInt j => ok (PInt (iop i j))
  | _, _ =>
      ebind (to_float x) (fun f =>
      ebind (to_float y) (fun g =>
      ok (PFloat (fop f g))))
  end)).

(** [a + b] and [a * b] *)
Definition add : value -> value -> Exc value := arith Z.add fadd.
Definition mul : value -> value -> Exc value := arith Z.mul fmul.

(** [a / b] *)
Definition truediv (a b : value) : Exc value :=
  ebind (as_num a) (fun x =>
  ebind (as_num b) (fun y =>
  match x, y with
  | NInt i, NInt j => ebind (int_true_divide i j) (fun f => ok (PFloat f))
  | _, _ =>
      ebind (to_float x) (fun f =>
      ebind (to_float y) (fun g =>
      if is_fzero g then raise ZeroDivisionError else ok (PFloat (fdiv f g))))
  end)).

(** A [for] loop that updates an accumulator and stops at the first
    exception. *)
Fixpoint for_each (step : value -> value -> Exc value) (l : list value) (acc : value)
  : Exc value :=
  match l with
  | [] => ok acc
  | x :: l' => ebind (step acc x) (for_each step l')
  end.

(** What built-in [sum] returns for the items [l] when their plain
    left-to-right additions give the float [f].  It is [f] itself before
    CPython 3.12 ([plain_total]); from 3.12 on the interpreter carries a
    compensation term through the floats and returns a total that can
    differ from [f] in its last bits. *)
Definition float_sum : Type := list value -> spec_float -> spec_float.

Definition plain_total : float_sum := fun _ f => f.

(** [sum(l)]: the items are added from left to right, starting from the
    integer 0.  Integers are added exactly, and an addition raises in
    every version of the interpreter exactly where the plain addition
    does; a float total is the one of the interpreter at hand. *)
Definition sum (float_total : float_sum) (l : list value) : Exc value :=
  match for_each add l (PInt 0) with
  | inr (PFloat f) => ok (PFloat (float_total l f))
  | r => r
  end.

(** [len(l)] *)
Definition len (l : list value) : value := PInt (Z.of_nat (List.length l)).

End Py.

(** ** The application *)

Module App.
Import Py.

(** What a view function returns: a JSON payload and a status code. *)
Record response : Type := mkResponse { payload : value; status : Z }.

(** [jsonify(v)], answered with the status 200 *)
Definition jsonify (v : value) : response := mkResponse v 200.

(** [jsonify({'error': msg}), code] *)
Definition error_response (msg : string) (code : Z) : response :=
  mkResponse (PDict [("error", PStr msg)]) code.

(** What the logger has been given, oldest first.  A record keeps the
    values its message was formatted from. *)
Inductive log_record : Type :=
| Info (operation numbers result : value)
| Error (e : exn).

Definition log : Type := list log_record.

(** A computation of the handler: it reads and extends the log, and
    returns or raises. *)
Definition M (A : Type) : Type := log -> Exc A * log.

Definition ret {A : Type} (a : A) : M A := fun lg => (ok a, lg).

Definition bind {A B : Type} (c : M A) (k : A -> M B) : M B :=
  fun lg =>
    match c lg with
    | (inl e, lg') => (inl e, lg')
    | (inr a, lg') => k a lg'
    end.

Definition lift {A : Type} (c : Exc A) : M A := fun lg => (c, lg).

(** [try: body except Exception as e: handler(e)] *)
Definition try_except {A : Type} (body : M A) (handler : exn -> M A) : M A :=
  fun lg =>
    match body lg with
    | (inl e, lg') => handler e lg'
    | (inr a, lg') => (inr a, lg')
    end.

(** A computation whose outcome does not depend on the log it starts
    from, and which only appends to that log. *)
Definition log_independent {A : Type} (c : M A) : Prop :=
  exists (a : Exc A) (out : log), forall lg : log, c lg = (a, lg ++ out).

Definition logger_info (operation numbers result : value) : M unit :=
  fun lg => (ok tt, lg ++ [Info operation numbers result]).

Definition logger_error (e : exn) : M unit :=
  fun lg => (ok tt, lg ++ [Error e]).

Notation "x <- c ;; k" := (bind c (fun x => k))
  (at level 61, c at next level, right associativity).
Notation "c ;; k" := (bind c (fun _ => k))
  (at level 61, right associativity).

Section Handler.

(** The interpreter's limit on the decimal digits of an integer turned
    into text ([sys.get_int_max_str_digits()]); 0 when there is none. *)
Variable max_str_digits : Z.

(** The float totals of the interpreter's built-in [sum]. *)
Variable float_total : float_sum.

(** [str(z)] succeeds. *)
Definition int_str_ok (z : Z) : bool :=
  (max_str_digits <=? 0) || (Z.abs z <? 10 ^ max_str_digits).

(** [str(v)] succeeds: every integer in [v] can be printed. *)
Fixpoint str_ok (v : value) : bool :=
  match v with
  | PInt z => int_str_ok z
  | PList l => forallb str_ok l
  | PDict d => forallb (fun kv => str_ok (snd kv)) d
  | _ => true
  end.

(** Evaluating an f-string with the given fields: [ValueError] when an
    integer among them is too long to print.  [jsonify] prints the same
    values afterwards, and so raises nothing more. *)
Definition fstring (fields : list value) : Exc unit :=
  if forallb str_ok fields then ok tt else raise ValueError.

(** [calculate()], given what [request.get_json()] evaluates to. *)
Definition calculate (get_json : Exc value) : M response :=
  try_except
    (data <- lift get_json ;;
     missing <- lift (if negb (truthy data) then ok true
                      else ebind (contains data "numbers") (fun b => ok (negb b))) ;;
     if missing then ret (error_response "Missing numbers array" 400) else
     numbers <- lift (getitem data "numbers") ;;
     operation <- lift (get data "operation" (PStr "sum")) ;;
     if negb (isinstance_list numbers) || negb (truthy numbers) then
       ret (error_response "Numbers must be a non-empty array" 400) else
     if existsb (fun num => negb (isinstance_int_float num)) (items numbers) then
       ret (error_response "All elements must be numbers" 400) else
     let result := [("numbers", numbers); ("operation", operation)] in
     let finish (r : value) : M response :=
       lift (fstring [operation; numbers; r]) ;;
       logger_info operation numbers r ;;
       ret (jsonify (PDict (result ++ [("result", r)]))) in
     if eq_str operation "sum" then
       r <- lift (sum float_total (items numbers)) ;;
       finish r
     else if eq_str operation "product" then
       r <- lift (for_each mul (items numbers) (PInt 1)) ;;
       finish r
     else if eq_str operation "average" then
       s <- lift (sum float_total (items numbers)) ;;
       r <- lift (truediv s (len (items numbers))) ;;
       finish r
     else
       ret (error_response "Unsupported operation. Use: sum, product, average" 400))
    (fun e =>
       logger_error e ;;
       ret (error_response "Internal server error" 500)).

End Handler.

(** *** The error handler *)

(** [internal_error(error)], the handler of the status 500 *)
Definition internal_error (error : exn) : response :=
  error_response "Internal server error" 500.

End App.

(** ** What the specification says, in its own words *)

Module Spec.
Import Py App.

(** A numeric value of the specification: an integer or a float, a
    boolean being none. *)
Definition numeric (v : value) : bool :=
  match v with
  | PInt _ | PFloat _ => true
  | _ => false
  end.

(** An integer operand: an [int], or a [bool] taken as 0 or 1. *)
Definition int_like (v : value) : bool :=
  match v with
  | PInt _ | PBool _ => true
  | _ => false
  end.

Definition is_float (v : value) : bool :=
  match v with
  | PFloat _ => true
  | _ => false
  end.

Definition int_value (v : value) : Z :=
  match v with
  | PInt z => z
  | PBool true => 1
  | _ => 0
  end.

(** The arithmetic sum and product of integer operands. *)
Definition Zsum (l : list value) : Z :=
  fold_right (fun v acc => int_value v + acc) 0 l.

Definition Zprod (l : list value) : Z :=
  fold_right (fun v acc => int_value v * acc) 1 l.

(** "running product initialized to integer 1, multiplied by each element
    in input order" *)
Definition running_product (l : list value) : Exc value :=
  fold_left (fun acc x => ebind acc (fun a => mul a x)) l (ok (PInt 1)).

(** The validation sequence: the four checks in their order, and the
    message of the first one that fails. *)
Definition numbers_present (d : list (string * value)) : bool :=
  match lookup "numbers" d with
  | Some _ => true
  | None => false
  end.

Definition numbers_nonempty_sequence (d : list (string * value)) : bool :=
  match lookup "numbers" d with
  | Some (PList (_ :: _)) => true
  | _ => false
  end.

Definition elements_numeric (d : list (string * value)) : bool :=
  match lookup "numbers" d with
  | Some (PList l) => forallb isinstance_int_float l
  | _ => false
  end.

Definition operation_supported (d : list (string * value)) : bool :=
  match lookup "operation" d with
  | None => true
  | Some (PStr s) =>
      String.eqb s "sum" || String.eqb s "product" || String.eqb s "average"
  | Some _ => false
  end.

Definition first_failure (d : list (string * value)) : option string :=
  if negb (numbers_present d) then Some "Missing numbers array"
  else if negb (numbers_nonempty_sequence d) then Some "Numbers must be a non-empty array"
  else if negb (elements_numeric d) then Some "All elements must be numbers"
  else if negb (operation_supported d) then
    Some "Unsupported operation. Use: sum, product, average"
  else None.

(** The validation sequence on any body: one that is not a JSON object
    fails the first check. *)
Definition body_first_failure (v : value) : option string :=
  match v with
  | PDict d => first_failure d
  | _ => Some "Missing numbers array"
  end.

(** What the handler answers once the validation has passed and the
    reduction [c] of the operation [op] has returned or raised: the
    payload with the status 200 and a line in the log, or the answer 500
    when the reduction raised or its result cannot be printed. *)
Definition reduction_outcome (max_str_digits : Z) (op : string) (l : list value)
  (c : Exc value) (lg : log) : Exc response * log :=
  match c with
  | inl e => (ok (error_response "Internal server error" 500), lg ++ [Error e])
  | inr r =>
      if forallb (str_ok max_str_digits) [PStr op; PList l; r] then
        (ok (jsonify (PDict [("numbers", PList l); ("operation", PStr op); ("result", r)])),
         lg ++ [Info (PStr op) (PList l) r])
      else (ok (error_response "Internal server error" 500), lg ++ [Error ValueError])
  end.

(** The operation a request resolves to. *)
Definition resolved_operation (d : list (string * value)) : value :=
  match lookup "operation" d with
  | Some op => op
  | None => PStr "sum"
  end.

(** The request [{"numbers": l, "operation": op}]. *)
Definition request (l : list value) (op : string) : Exc value :=
  ok (PDict [("numbers", PList l); ("operation", PStr op)]).


(** A number as an operation returns it: an [int] or a [float]. *)
Definition is_number (v : value) : bool :=
  match v with
  | PInt _ | PFloat _ => true
  | _ => false
  end.

(** The messages of the four validation checks. *)
Definition validation_messages : list string :=
  ["Missing numbers array";
   "Numbers must be a non-empty array";
   "All elements must be numbers";
   "Unsupported operation. Use: sum, product, average"].

(** The names of the three reductions. *)
Definition operations : list string := ["sum"; "product"; "average"].

(** The "result" field of an answer, when it has one. *)
Definition result_of (a : Exc response * log) : option value :=
  match fst a with
  | inr r => match payload r with
             | PDict d => lookup "result" d
             | _ => None
             end
  | inl _ => None
  end.

(** The status of an answer. *)
Definition status_of (a : Exc response * log) : option Z :=
  match fst a with
  | inr r => Some (status r)
  | inl _ => None
  end.

End Spec.

(** ** Properties of the handler *)

Import Py App Spec.

(** Unfolds the handler and its monad down to the Python operations. *)
Ltac run_handler :=
  unfold calculate, try_except, bind, lift, ret, logger_info, logger_error;
  cbn [truthy contains getitem get ebind ok raise negb orb isinstance_list items fst snd].

Lemma lookup_some_truthy (k : string) (d : list (string * value)) (v : value) :
  lookup k d = Some v -> truthy (PDict d) = true.
Proof.
  destruct d as [|kv d]; [discriminate | reflexivity].
Qed.

Lemma existsb_negb_forallb {A : Type} (p : A -> bool) (l : list A) :
  existsb (fun x => negb (p x)) l = negb (forallb p l).
Proof.
  induction l as [|x l IH]; cbn; [reflexivity|].
  rewrite IH. now destruct (p x).
Qed.

Section Validation.

Variable max_str_digits : Z.
Variable float_total : float_sum.

(** A body that is falsy, or a JSON object without the key, misses the
    numbers. *)
Lemma calculate_missing_object (d : list (string * value)) (lg : log) :
  lookup "numbers" d = None ->
  calculate max_str_digits float_total (ok (PDict d)) lg = (ok (error_response "Missing numbers array" 400), lg).
Proof.
  intros Hn. run_handler. rewrite Hn.
  destruct d; reflexivity.
Qed.

Lemma calculate_missing_falsy (v : value) (lg : log) :
  truthy v = false ->
  calculate max_str_digits float_total (ok v) lg = (ok (error_response "Missing numbers array" 400), lg).
Proof.
  intros Hv. unfold calculate, try_except, bind, lift, ret, ok.
  cbv beta iota. rewrite Hv. reflexivity.
Qed.

(** The handler past its first check, on an object that has the key. *)
Lemma calculate_numbers_not_list (d : list (string * value)) (v : value) (lg : log) :
  lookup "numbers" d = Some v ->
  isinstance_list v = false \/ v = PList [] ->
  calculate max_str_digits float_total (ok (PDict d)) lg =
    (ok (error_response "Numbers must be a non-empty array" 400), lg).
Proof.
  intros Hn Hv. run_handler.
  destruct d as [|kv d]; [discriminate|]. rewrite Hn.
  cbn [negb ebind ok].
  destruct Hv as [Hv | ->].
  - rewrite Hv. reflexivity.
  - reflexivity.
Qed.

Lemma calculate_not_numeric (d : list (string * value)) (l : list value) (lg : log) :
  lookup "numbers" d = Some (PList l) ->
  forallb isinstance_int_float l = false ->
  l <> [] ->
  calculate max_str_digits float_total (ok (PDict d)) lg =
    (ok (error_response "All elements must be numbers" 400), lg).
Proof.
  intros Hn Hl Hne. run_handler.
  destruct d as [|kv d]; [discriminate|]. rewrite Hn.
  cbn [negb ebind ok isinstance_list items orb].
  destruct l as [|x l]; [congruence|].
  cbn [truthy negb].
  rewrite existsb_negb_forallb, Hl. reflexivity.
Qed.

Lemma calculate_unsupported (d : list (string * value)) (l : list value)
  (op : value) (lg : log) :
  lookup "numbers" d = Some (PList l) ->
  l <> [] ->
  forallb isinstance_int_float l = true ->
  lookup "operation" d = Some op ->
  eq_str op "sum" = false ->
  eq_str op "product" = false ->
  eq_str op "average" = false ->
  calculate max_str_digits float_total (ok (PDict d)) lg =
    (ok (error_response "Unsupported operation. Use: sum, product, average" 400), lg).
Proof.
  intros Hn Hne Hl Ho H1 H2 H3. run_handler.
  destruct d as [|kv d]; [discriminate|]. rewrite Hn, Ho.
  cbn [negb ebind ok isinstance_list items orb].
  destruct l as [|x l]; [congruence|].
  cbn [truthy negb].
  rewrite existsb_negb_forallb, Hl. cbn [negb].
  rewrite H1, H2, H3. reflexivity.
Qed.

End Validation.

(** *** The numeric tower *)

Lemma arith_ints (iop : Z -> Z -> Z) (fop : spec_float -> spec_float -> spec_float)
  (a b : value) :
  int_like a = true -> int_like b = true ->
  arith iop fop a b = ok (PInt (iop (int_value a) (int_value b))).
Proof.
  destruct a as [| [] | | | | |]; try discriminate;
    destruct b as [| [] | | | | |]; try discriminate; reflexivity.
Qed.

Lemma arith_float (iop : Z -> Z -> Z) (fop : spec_float -> spec_float -> spec_float)
  (a b r : value) :
  arith iop fop a b = ok r ->
  is_float a || is_float b = true ->
  is_float r = true.
Proof.
  unfold arith.
  destruct a as [| [] | za | fa | | |]; try discriminate;
    destruct b as [| [] | zb | fb | | |]; try discriminate;
    cbn [as_num ebind ok to_float is_float orb]; try discriminate;
    intros H _;
    repeat match type of H with
    | context [int_to_float ?z] => destruct (int_to_float z); cbn [ebind] in H
    end;
    try discriminate; injection H as <-; reflexivity.
Qed.

Lemma truediv_float (a b r : value) :
  truediv a b = ok r -> is_float r = true.
Proof.
  unfold truediv.
  destruct (as_num a) as [e | x]; [discriminate|].
  destruct (as_num b) as [e | y]; [discriminate|].
  cbn [ebind].
  assert (Hgen : forall c : Exc value,
    c = ebind (to_float x) (fun f => ebind (to_float y) (fun g =>
      if is_fzero g then raise ZeroDivisionError else ok (PFloat (fdiv f g)))) ->
    c = ok r -> is_float r = true).
  { intros c -> H.
    destruct (to_float x) as [e | f]; [discriminate|].
    destruct (to_float y) as [e | g]; [discriminate|].
    cbn [ebind] in H. destruct (is_fzero g); [discriminate|].
    injection H as <-. reflexivity. }
  destruct x as [i | f], y as [j | g]; try (apply Hgen; reflexivity).
  destruct (int_true_divide i j) as [e | f]; [discriminate|].
  cbn [ebind]. intros H. injection H as <-. reflexivity.
Qed.


(** *** The loops *)

Lemma for_each_ints (iop : Z -> Z -> Z) (fop : spec_float -> spec_float -> spec_float)
  (l : list value) :
  forallb int_like l = true ->
  forall a : Z,
    for_each (arith iop fop) l (PInt a) =
      ok (PInt (fold_left (fun acc v => iop acc (int_value v)) l a)).
Proof.
  induction l as [|x l IH]; intros Hl a; [reflexivity|].
  cbn [forallb] in Hl. apply andb_prop in Hl as [Hx Hl].
  cbn [for_each fold_left].
  rewrite (arith_ints iop fop (PInt a) x eq_refl Hx).
  cbn [ebind ok int_value]. apply IH, Hl.
Qed.

Lemma for_each_float (iop : Z -> Z -> Z) (fop : spec_float -> spec_float -> spec_float)
  (l : list value) :
  forall acc r : value,
    for_each (arith iop fop) l acc = ok r ->
    is_float acc || existsb is_float l = true ->
    is_float r = true.
Proof.
  induction l as [|x l IH]; intros acc r Hr Hf.
  - cbn in Hr, Hf. injection Hr as <-. now rewrite orb_false_r in Hf.
  - cbn [for_each] in Hr. cbn [existsb] in Hf.
    destruct (arith iop fop acc x) as [e | acc'] eqn:Hstep; [discriminate|].
    cbn [ebind] in Hr. apply (IH acc' r Hr).
    destruct (is_float acc || is_float x) eqn:Hax.
    + now rewrite (arith_float iop fop acc x acc' Hstep Hax).
    + apply orb_false_elim in Hax as [Ha Hx].
      rewrite Ha, Hx in Hf. cbn in Hf. rewrite Hf. apply orb_true_r.
Qed.

Lemma fold_left_raised (step : value -> value -> Exc value) (l : list value) (e : exn) :
  fold_left (fun acc x => ebind acc (fun a => step a x)) l (inl e) = inl e.
Proof.
  induction l as [|x l IH]; [reflexivity | exact IH].
Qed.

Lemma for_each_fold_left (step : value -> value -> Exc value) (l : list value) :
  forall acc : value,
    for_each step l acc =
      fold_left (fun c x => ebind c (fun a => step a x)) l (ok acc).
Proof.
  induction l as [|x l IH]; intros acc; [reflexivity|].
  cbn [for_each fold_left ebind ok].
  destruct (step acc x) as [e | acc'].
  - cbn [ebind]. symmetry. apply fold_left_raised.
  - cbn [ebind]. apply IH.
Qed.

Lemma fold_left_Zsum (l : list value) (a : Z) :
  fold_left (fun acc v => acc + int_value v) l a = a + Zsum l.
Proof.
  revert a. induction l as [|x l IH]; intros a; cbn [fold_left Zsum fold_right].
  - lia.
  - rewrite IH. unfold Zsum. lia.
Qed.

Lemma fold_left_Zprod (l : list value) (a : Z) :
  fold_left (fun acc v => acc * int_value v) l a = a * Zprod l.
Proof.
  revert a. induction l as [|x l IH]; intros a; cbn [fold_left Zprod fold_right].
  - lia.
  - rewrite IH. unfold Zprod. lia.
Qed.

Lemma sum_ints (float_total : float_sum) (l : list value) :
  forallb int_like l = true -> sum float_total l = ok (PInt (Zsum l)).
Proof.
  intros Hl. unfold sum, add.
  rewrite (for_each_ints _ _ l Hl), fold_left_Zsum. reflexivity.
Qed.

(** The sum raises exactly where the plain additions raise, whatever the
    float totals of the interpreter. *)
Lemma sum_raises (float_total : float_sum) (l : list value) (e : exn) :
  sum float_total l = inl e <-> for_each add l (PInt 0) = inl e.
Proof.
  unfold sum. destruct (for_each add l (PInt 0)) as [e' | r]; [reflexivity|].
  destruct r; split; discriminate.
Qed.

Lemma sum_float (float_total : float_sum) (l : list value) (r : value) :
  sum float_total l = ok r ->
  existsb is_float l = true ->
  is_float r = true.
Proof.
  unfold sum. intros Hr Hf.
  destruct (for_each add l (PInt 0)) as [e | r0] eqn:H0; [discriminate|].
  assert (Hf0 : is_float r0 = true).
  { apply (for_each_float Z.add fadd l (PInt 0) r0 H0). now rewrite Hf. }
  destruct r0; try discriminate. now injection Hr as <-.
Qed.

Lemma product_ints (l : list value) :
  forallb int_like l = true -> for_each mul l (PInt 1) = ok (PInt (Zprod l)).
Proof.
  intros Hl. unfold mul.
  rewrite (for_each_ints _ _ l Hl), fold_left_Zprod.
  f_equal. f_equal. lia.
Qed.

(** *** The three reductions *)

Section Reductions.

Variable max_str_digits : Z.
Variable float_total : float_sum.

(** Runs the handler on a valid request up to the choice of the
    operation. *)
Ltac enter_valid d l Hn Hne Hl Ho :=
  unfold resolved_operation in Ho;
  destruct d as [|? ?]; [discriminate Hn|];
  destruct l as [|? ?]; [congruence|];
  run_handler; rewrite Hn;
  cbn [negb ebind ok isinstance_list items orb truthy];
  rewrite existsb_negb_forallb, Hl; cbn [negb];
  match type of Ho with
  | match ?x with _ => _ end = _ => destruct x; [rewrite Ho | try discriminate Ho; clear Ho]
  end.

Lemma calculate_valid_sum (d : list (string * value)) (l : list value) (lg : log) :
  lookup "numbers" d = Some (PList l) ->
  l <> [] ->
  forallb isinstance_int_float l = true ->
  resolved_operation d = PStr "sum" ->
  calculate max_str_digits float_total (ok (PDict d)) lg =
    reduction_outcome max_str_digits "sum" l (sum float_total l) lg.
Proof.
  intros Hn Hne Hl Ho. enter_valid d l Hn Hne Hl Ho.
  all: change (eq_str (PStr "sum") "sum") with true. all: cbv iota.
  all: unfold reduction_outcome, fstring.
  all: destruct (sum _ _) as [e | r]; [reflexivity|].
  all: destruct (forallb (str_ok _) _); reflexivity.
Qed.

Lemma calculate_valid_product (d : list (string * value)) (l : list value) (lg : log) :
  lookup "numbers" d = Some (PList l) ->
  l <> [] ->
  forallb isinstance_int_float l = true ->
  resolved_operation d = PStr "product" ->
  calculate max_str_digits float_total (ok (PDict d)) lg =
    reduction_outcome max_str_digits "product" l (for_each mul l (PInt 1)) lg.
Proof.
  intros Hn Hne Hl Ho. enter_valid d l Hn Hne Hl Ho.
  all: change (eq_str (PStr "product") "sum") with false.
  all: change (eq_str (PStr "product") "product") with true. all: cbv iota.
  all: unfold reduction_outcome, fstring.
  all: destruct (for_each _ _ _) as [e | r]; [reflexivity|].
  all: destruct (forallb (str_ok _) _); reflexivity.
Qed.

Lemma calculate_valid_average (d : list (string * value)) (l : list value) (lg : log) :
  lookup "numbers" d = Some (PList l) ->
  l <> [] ->
  forallb isinstance_int_float l = true ->
  resolved_operation d = PStr "average" ->
  calculate max_str_digits float_total (ok (PDict d)) lg =
    reduction_outcome max_str_digits "average" l
      (ebind (sum float_total l) (fun s => truediv s (len l))) lg.
Proof.
  intros Hn Hne Hl Ho. enter_valid d l Hn Hne Hl Ho.
  all: change (eq_str (PStr "average") "sum") with false.
  all: change (eq_str (PStr "average") "product") with false.
  all: change (eq_str (PStr "average") "average") with true. all: cbv iota.
  all: unfold reduction_outcome, fstring.
  all: destruct (sum _ _) as [e | s]; [reflexivity|]; cbn [ebind].
  all: destruct (truediv _ _) as [e | r]; [reflexivity|].
  all: destruct (forallb (str_ok _) _); reflexivity.
Qed.

End Reductions.

(** *** The log is written, never read *)

Lemma ret_log_independent {A : Type} (a : A) : log_independent (ret a).
Proof.
  exists (ok a), []. intros lg. unfold ret. now rewrite app_nil_r.
Qed.

Lemma lift_log_independent {A : Type} (c : Exc A) : log_independent (lift c).
Proof.
  exists c, []. intros lg. unfold lift. now rewrite app_nil_r.
Qed.

Lemma logger_info_log_independent (operation numbers result : value) :
  log_independent (logger_info operation numbers result).
Proof.
  exists (ok tt), [Info operation numbers result]. reflexivity.
Qed.

Lemma logger_error_log_independent (e : exn) : log_independent (logger_error e).
Proof.
  exists (ok tt), [Error e]. reflexivity.
Qed.

Lemma bind_log_independent {A B : Type} (c : M A) (k : A -> M B) :
  log_independent c ->
  (forall a : A, log_independent (k a)) ->
  log_independent (bind c k).
Proof.
  intros (r & out & Hc) Hk. destruct r as [e | a].
  - exists (inl e), out. intros lg. unfold bind. now rewrite Hc.
  - destruct (Hk a) as (r' & out' & Hka).
    exists r', (out ++ out'). intros lg. unfold bind.
    now rewrite Hc, Hka, app_assoc.
Qed.

Lemma try_except_log_independent {A : Type} (body : M A) (handler : exn -> M A) :
  log_independent body ->
  (forall e : exn, log_independent (handler e)) ->
  log_independent (try_except body handler).
Proof.
  intros (r & out & Hb) Hh. destruct r as [e | a].
  - destruct (Hh e) as (r' & out' & Hhe).
    exists r', (out ++ out'). intros lg. unfold try_except.
    now rewrite Hb, Hhe, app_assoc.
  - exists (inr a), out. intros lg. unfold try_except. now rewrite Hb.
Qed.

Ltac log_independence :=
  repeat first
    [ apply try_except_log_independent
    | apply bind_log_independent
    | apply ret_log_independent
    | apply lift_log_independent
    | apply logger_info_log_independent
    | apply logger_error_log_independent
    | intro
    | match goal with
      | |- log_independent (if ?b then _ else _) => destruct b
      end ].

Lemma calculate_log_independent (max_str_digits : Z) (float_total : float_sum) (get_json : Exc value) :
  log_independent (calculate max_str_digits float_total get_json).
Proof.
  unfold calculate. cbv zeta. log_independence.
Qed.

(** The handler always answers: no exception leaves it. *)
Lemma calculate_answers (max_str_digits : Z) (float_total : float_sum) (get_json : Exc value) (lg : log) :
  exists r : response, fst (calculate max_str_digits float_total get_json lg) = ok r.
Proof.
  unfold calculate, try_except.
  match goal with
  | |- context [match ?body lg with _ => _ end] =>
      destruct (body lg) as [[e | r] lg']
  end.
  - unfold bind, logger_error, ret. now eexists.
  - now eexists.
Qed.

Lemma lookup_app_some (k : string) (d d' : list (string * value)) (v : value) :
  lookup k d = Some v -> lookup k (d ++ d') = Some v.
Proof.
  induction d as [|[k' x] d IH]; [discriminate|].
  cbn [lookup app]. destruct (String.eqb k' k); [trivial | exact IH].
Qed.

Lemma lookup_app_none (k : string) (d d' : list (string * value)) :
  lookup k d = None -> lookup k (d ++ d') = lookup k d'.
Proof.
  induction d as [|[k' x] d IH]; [reflexivity|].
  cbn [lookup app]. destruct (String.eqb k' k); [discriminate | exact IH].
Qed.

Lemma eq_str_not_string (v : value) (s : string) :
  (forall t : string, v <> PStr t) -> eq_str v s = false.
Proof.
  intros Hv. destruct v; try reflexivity. now destruct (Hv s0).
Qed.

Lemma reduction_outcome_ok (max_str_digits : Z) (op : string) (l : list value)
  (r : value) (lg : log) :
  forallb (str_ok max_str_digits) [PList l; r] = true ->
  reduction_outcome max_str_digits op l (ok r) lg =
    (ok (jsonify (PDict [("numbers", PList l); ("operation", PStr op); ("result", r)])),
     lg ++ [Info (PStr op) (PList l) r]).
Proof.
  intros H. unfold reduction_outcome, ok.
  replace (forallb (str_ok max_str_digits) [PStr op; PList l; r])
    with (forallb (str_ok max_str_digits) [PList l; r]) by reflexivity.
  now rewrite H.
Qed.

(** ** The claims *)

Section Claims.

Variable max_str_digits : Z.
Variable float_total : float_sum.


(** C2, amended: a request with a non-empty list of numbers and the
    operation "product" is answered with the status 200 and the running
    product that starts from the integer 1 and is multiplied by each item
    in input order, provided that no multiplication raises and that the
    integers of the request and of the result can be printed.  The product
    of integers is their exact integer product. *)
Theorem calculate_product_ok (d : list (string * value)) (l : list value) (r : value)
  (lg : log) :
  lookup "numbers" d = Some (PList l) ->
  l <> [] ->
  forallb isinstance_int_float l = true ->
  resolved_operation d = PStr "product" ->
  running_product l = ok r ->
  forallb (str_ok max_str_digits) [PList l; r] = true ->
  calculate max_str_digits float_total (ok (PDict d)) lg =
    (ok (jsonify (PDict [("numbers", PList l); ("operation", PStr "product");
                         ("result", r)])),
     lg ++ [Info (PStr "product") (PList l) r])
  /\ (forallb int_like l = true -> r = PInt (Zprod l)).
Proof.
  intros Hn Hne Hl Ho Hr Hs.
  unfold running_product in Hr. rewrite <- for_each_fold_left in Hr.
  split.
  - rewrite (calculate_valid_product max_str_digits float_total d l lg Hn Hne Hl Ho), Hr.
    now apply reduction_outcome_ok.
  - intros Hi. rewrite (product_ints l Hi) in Hr. now injection Hr as <-.
Qed.


(** C4, amended: a request whose list of numbers holds an item that is
    none of an integer, a float or a boolean (a null, a string, a list, an
    object) is answered with the status 400 and the error "All elements
    must be numbers", and nothing is logged. *)
Theorem calculate_rejects_non_number (d : list (string * value)) (l : list value)
  (lg : log) :
  lookup "numbers" d = Some (PList l) ->
  existsb (fun v => negb (isinstance_int_float v)) l = true ->
  calculate max_str_digits float_total (ok (PDict d)) lg =
    (ok (error_response "All elements must be numbers" 400), lg).
Proof.
  intros Hn Hl. rewrite existsb_negb_forallb in Hl.
  apply calculate_not_numeric with (l := l); trivial.
  - now destruct (forallb isinstance_int_float l).
  - intros ->. discriminate.
Qed.

(** C5, at inputs where the handler departs from the claim: a body that
    is the number 5, the list ["numbers"] or the boolean true holds no
    numbers and is answered with the status 500 and the error "Internal
    server error", the [TypeError] of the membership test or of the
    subscript being logged. *)
Theorem calculate_non_object_body (lg : log) :
  calculate max_str_digits float_total (ok (PInt 5)) lg =
    (ok (error_response "Internal server error" 500), lg ++ [Error TypeError])
  /\ calculate max_str_digits float_total (ok (PList [PStr "numbers"])) lg =
    (ok (error_response "Internal server error" 500), lg ++ [Error TypeError])
  /\ calculate max_str_digits float_total (ok (PBool true)) lg =
    (ok (error_response "Internal server error" 500), lg ++ [Error TypeError]).
Proof.
  repeat split.
Qed.

(** C6: a request whose "numbers" field is not a list (a scalar, a null, a
    string, an object) or is the empty list is answered with the status
    400 and the error "Numbers must be a non-empty array". *)
Theorem calculate_numbers_not_sequence (d : list (string * value)) (v : value)
  (lg : log) :
  lookup "numbers" d = Some v ->
  isinstance_list v = false \/ v = PList [] ->
  calculate max_str_digits float_total (ok (PDict d)) lg =
    (ok (error_response "Numbers must be a non-empty array" 400), lg).
Proof.
  intros Hn Hv. now apply calculate_numbers_not_list with (v := v).
Qed.

(** C7: on a request with a valid non-empty list of numbers, an absent
    "operation" resolves to "sum": the request is answered as a sum, with
    the status 200, the operation "sum" and the total of the numbers in
    the payload (500 when the sum raises or cannot be printed), which is
    also the answer to the same request with the operation "sum" written
    in it; and an operation that is a string other than "sum", "product"
    and "average" is answered with the status 400 and the error
    "Unsupported operation. Use: sum, product, average". *)
Theorem calculate_operation_default_and_unsupported (d : list (string * value))
  (l : list value) (lg : log) :
  lookup "numbers" d = Some (PList l) ->
  l <> [] ->
  forallb isinstance_int_float l = true ->
  (lookup "operation" d = None ->
   calculate max_str_digits float_total (ok (PDict d)) lg =
     reduction_outcome max_str_digits "sum" l (sum float_total l) lg
   /\ calculate max_str_digits float_total (ok (PDict d)) lg =
     calculate max_str_digits float_total
       (ok (PDict (d ++ [("operation", PStr "sum")]))) lg)
  /\ (forall s : string,
        resolved_operation d = PStr s ->
        s <> "sum" -> s <> "product" -> s <> "average" ->
        calculate max_str_digits float_total (ok (PDict d)) lg =
          (ok (error_response "Unsupported operation. Use: sum, product, average" 400),
           lg)).
Proof.
  intros Hn Hne Hl. split.
  - intros Ho.
    assert (Hr : resolved_operation d = PStr "sum")
      by (unfold resolved_operation; now rewrite Ho).
    rewrite (calculate_valid_sum max_str_digits float_total d l lg Hn Hne Hl Hr).
    split; [reflexivity|].
    symmetry. apply calculate_valid_sum; trivial.
    + now apply lookup_app_some.
    + unfold resolved_operation. now rewrite (lookup_app_none _ _ _ Ho).
  - intros s Hr H1 H2 H3. unfold resolved_operation in Hr.
    destruct (lookup "operation" d) as [op|] eqn:Ho.
    + subst op.
      apply calculate_unsupported with (l := l) (op := PStr s); trivial;
        now apply String.eqb_neq.
    + injection Hr as <-. now destruct H1.
Qed.

(** C8, at inputs where the handler departs from the claim: the bodies
    5, true and ["numbers"] are not JSON objects, so the first check of
    the validation sequence fails on them, yet they are not answered with
    its message "Missing numbers array" and the status 400 but with the
    status 500, the first check itself raising [TypeError]. *)
Theorem calculate_first_failure_non_object (lg : log) :
  (body_first_failure (PInt 5) = Some "Missing numbers array"
   /\ calculate max_str_digits float_total (ok (PInt 5)) lg =
       (ok (error_response "Internal server error" 500), lg ++ [Error TypeError]))
  /\ (body_first_failure (PBool true) = Some "Missing numbers array"
      /\ calculate max_str_digits float_total (ok (PBool true)) lg =
          (ok (error_response "Internal server error" 500), lg ++ [Error TypeError]))
  /\ (body_first_failure (PList [PStr "numbers"]) = Some "Missing numbers array"
      /\ calculate max_str_digits float_total (ok (PList [PStr "numbers"])) lg =
          (ok (error_response "Internal server error" 500), lg ++ [Error TypeError])).
Proof.
  repeat split.
Qed.

(** X13: on JSON objects the checks are made in the order numbers
    present, numbers a non-empty list, every item a number, operation
    supported, and the first one that fails decides the answer: on every
    JSON object for which some check fails, the handler answers with the
    status 400 and the message of the earliest failing check, whatever the
    later checks would say, and logs nothing. *)
Theorem calculate_first_failure (d : list (string * value)) (msg : string)
  (lg : log) :
  first_failure d = Some msg ->
  calculate max_str_digits float_total (ok (PDict d)) lg = (ok (error_response msg 400), lg).
Proof.
  unfold first_failure, numbers_present, numbers_nonempty_sequence,
    elements_numeric, operation_supported.
  destruct (lookup "numbers" d) as [v|] eqn:Hn; cbn [negb].
  2: { intros H. injection H as <-. now apply calculate_missing_object. }
  destruct v as [| | | | | l |];
    try (intros H; injection H as <-;
         eapply calculate_numbers_not_list; [eassumption | now left]).
  destruct l as [|x l]; cbn [negb].
  { intros H. injection H as <-.
    eapply calculate_numbers_not_list; [eassumption | now right]. }
  destruct (forallb isinstance_int_float (x :: l)) eqn:Hl; cbn [negb].
  2: { intros H. injection H as <-.
       eapply calculate_not_numeric; [eassumption | exact Hl | discriminate]. }
  destruct (lookup "operation" d) as [op|] eqn:Ho; [|discriminate].
  assert (Hun : forall a b c : bool,
    eq_str op "sum" = a -> eq_str op "product" = b -> eq_str op "average" = c ->
    a || b || c = false ->
    calculate max_str_digits float_total (ok (PDict d)) lg =
      (ok (error_response "Unsupported operation. Use: sum, product, average" 400), lg)).
  { intros a b c Ha Hb Hc Habc.
    apply orb_false_elim in Habc as [Hab ->].
    apply orb_false_elim in Hab as [-> ->].
    eapply calculate_unsupported; try eassumption. discriminate. }
  destruct op as [| | | | s | |]; cbn [negb];
    try (intros H; injection H as <-; now apply (Hun false false false)).
  destruct (String.eqb s "sum" || String.eqb s "product" || String.eqb s "average")
    eqn:Hs; cbn [negb]; [discriminate|].
  intros H. injection H as <-. now apply (Hun _ _ _ eq_refl eq_refl eq_refl).
Qed.

(** C9: the answer of the handler is a function of the request alone:
    run on the same request from any two states of the log, the handler
    gives the same response (status and payload). *)
Theorem calculate_deterministic (get_json : Exc value) (lg1 lg2 : log) :
  fst (calculate max_str_digits float_total get_json lg1) =
  fst (calculate max_str_digits float_total get_json lg2).
Proof.
  destruct (calculate_log_independent max_str_digits float_total get_json) as (r & out & H).
  now rewrite !H.
Qed.

(** C10: on a request with a valid non-empty list of numbers, an
    "operation" that is present and is not a string (a null, a number, a
    boolean, a list, an object) is answered with the status 400 and the
    error "Unsupported operation. Use: sum, product, average"; a null
    operation does not fall back to "sum". *)
Theorem calculate_operation_not_string (d : list (string * value)) (l : list value)
  (op : value) (lg : log) :
  lookup "numbers" d = Some (PList l) ->
  l <> [] ->
  forallb isinstance_int_float l = true ->
  lookup "operation" d = Some op ->
  (forall s : string, op <> PStr s) ->
  calculate max_str_digits float_total (ok (PDict d)) lg =
    (ok (error_response "Unsupported operation. Use: sum, product, average" 400), lg).
Proof.
  intros Hn Hne Hl Ho Hop.
  apply calculate_unsupported with (l := l) (op := op); trivial;
    now apply eq_str_not_string.
Qed.

End Claims.

(** ** The claims at concrete requests *)

(** The scenarios of the test suite. *)
Example scenario_sum :
  calculate 4300 plain_total (request [PInt 1; PInt 2; PInt 3; PInt 4; PInt 5] "sum") [] =
    (ok (jsonify (PDict [("numbers", PList [PInt 1; PInt 2; PInt 3; PInt 4; PInt 5]);
                         ("operation", PStr "sum"); ("result", PInt 15)])),
     [Info (PStr "sum") (PList [PInt 1; PInt 2; PInt 3; PInt 4; PInt 5]) (PInt 15)]).
Proof. vm_compute. reflexivity. Qed.

Example scenario_default_sum :
  fst (calculate 4300 plain_total (ok (PDict [("numbers", PList [PInt 1; PInt 2; PInt 3])])) []) =
    ok (jsonify (PDict [("numbers", PList [PInt 1; PInt 2; PInt 3]);
                        ("operation", PStr "sum"); ("result", PInt 6)])).
Proof. vm_compute. reflexivity. Qed.

Example scenario_missing_numbers :
  fst (calculate 4300 plain_total (ok (PDict [("operation", PStr "sum")])) []) =
    ok (error_response "Missing numbers array" 400).
Proof. vm_compute. reflexivity. Qed.

Example scenario_null_body :
  fst (calculate 4300 plain_total (ok PNone) []) = ok (error_response "Missing numbers array" 400).
Proof. vm_compute. reflexivity. Qed.

Example scenario_get_json_raises :
  calculate 4300 plain_total (raise HTTPException) [] =
    (ok (error_response "Internal server error" 500), [Error HTTPException]).
Proof. vm_compute. reflexivity. Qed.



(** C2 as stated fails: the product of the integer 10^400 and the float
    1.5 is answered with the status 500. *)
Lemma calculate_product_counterexample :
  let l := [PInt (10 ^ 400); PFloat (float_lit 3 (-1))] in
  forallb numeric l = true
  /\ calculate 4300 plain_total (request l "product") [] =
       (ok (error_response "Internal server error" 500), [Error OverflowError])
  /\ calculate 0 plain_total (request l "product") [] =
       (ok (error_response "Internal server error" 500), [Error OverflowError]).
Proof. vm_compute. repeat split. Qed.

(** C2 on the integers 2, 3 and 4: the product is the integer 24. *)
Lemma calculate_product_ok_witness :
  let l := [PInt 2; PInt 3; PInt 4] in
  calculate 4300 plain_total (request l "product") [] =
    (ok (jsonify (PDict [("numbers", PList l); ("operation", PStr "product");
                         ("result", PInt 24)])),
     [] ++ [Info (PStr "product") (PList l) (PInt 24)])
  /\ (forallb int_like l = true -> PInt 24 = PInt (Zprod l)).
Proof.
  intros l.
  apply (calculate_product_ok 4300 plain_total
           [("numbers", PList l); ("operation", PStr "product")] l (PInt 24) []).
  - reflexivity.
  - discriminate.
  - reflexivity.
  - reflexivity.
  - reflexivity.
  - vm_compute. reflexivity.
Defined.



(** C4 as stated fails: the list that holds the boolean true has an item
    that is neither an integer nor a float, and is answered with the
    status 200 and the sum 1. *)
Lemma calculate_boolean_counterexample :
  let l := [PBool true] in
  existsb (fun v => negb (numeric v)) l = true
  /\ calculate 4300 plain_total (request l "sum") [] =
       (ok (jsonify (PDict [("numbers", PList l); ("operation", PStr "sum");
                            ("result", PInt 1)])),
        [Info (PStr "sum") (PList l) (PInt 1)]).
Proof. vm_compute. repeat split. Qed.

(** C4 on the list [1, "x", 3]. *)
Lemma calculate_rejects_non_number_witness :
  calculate 4300 plain_total (ok (PDict [("numbers", PList [PInt 1; PStr "x"; PInt 3])])) [] =
    (ok (error_response "All elements must be numbers" 400), []).
Proof.
  apply (calculate_rejects_non_number 4300 plain_total
           [("numbers", PList [PInt 1; PStr "x"; PInt 3])]
           [PInt 1; PStr "x"; PInt 3] []).
  - reflexivity.
  - reflexivity.
Defined.

(** C6 on an empty list of numbers. *)
Lemma calculate_numbers_not_sequence_witness :
  calculate 4300 plain_total (request [] "sum") [] =
    (ok (error_response "Numbers must be a non-empty array" 400), []).
Proof.
  apply (calculate_numbers_not_sequence 4300 plain_total
           [("numbers", PList []); ("operation", PStr "sum")] (PList []) []).
  - reflexivity.
  - right. reflexivity.
Defined.

(** C7 on the numbers [1, 2, 3], without an operation and with the
    operation "median". *)
Lemma calculate_operation_default_and_unsupported_witness :
  calculate 4300 plain_total (ok (PDict [("numbers", PList [PInt 1; PInt 2; PInt 3])])) [] =
    (ok (jsonify (PDict [("numbers", PList [PInt 1; PInt 2; PInt 3]);
                         ("operation", PStr "sum"); ("result", PInt 6)])),
     [Info (PStr "sum") (PList [PInt 1; PInt 2; PInt 3]) (PInt 6)])
  /\ calculate 4300 plain_total (request [PInt 1; PInt 2; PInt 3] "median") [] =
    (ok (error_response "Unsupported operation. Use: sum, product, average" 400), []).
Proof.
  split.
  - destruct (calculate_operation_default_and_unsupported 4300 plain_total
                [("numbers", PList [PInt 1; PInt 2; PInt 3])]
                [PInt 1; PInt 2; PInt 3] [] eq_refl ltac:(discriminate) eq_refl)
      as [Hdefault _].
    destruct (Hdefault eq_refl) as [Hsum _].
    rewrite Hsum. vm_compute. reflexivity.
  - destruct (calculate_operation_default_and_unsupported 4300 plain_total
                [("numbers", PList [PInt 1; PInt 2; PInt 3]); ("operation", PStr "median")]
                [PInt 1; PInt 2; PInt 3] [] eq_refl ltac:(discriminate) eq_refl)
      as [_ Hunsupported].
    apply (Hunsupported "median"); [reflexivity | discriminate ..].
Defined.

(** X13 on an empty list of numbers with an unsupported operation, and
    on a non-numeric item with an unsupported operation. *)
Lemma calculate_first_failure_witness :
  calculate 4300 plain_total (request [] "median") [] =
    (ok (error_response "Numbers must be a non-empty array" 400), [])
  /\ calculate 4300 plain_total (request [PInt 1; PStr "x"] "median") [] =
    (ok (error_response "All elements must be numbers" 400), []).
Proof.
  split.
  - apply (calculate_first_failure 4300 plain_total
             [("numbers", PList []); ("operation", PStr "median")]
             "Numbers must be a non-empty array" []).
    reflexivity.
  - apply (calculate_first_failure 4300 plain_total
             [("numbers", PList [PInt 1; PStr "x"]); ("operation", PStr "median")]
             "All elements must be numbers" []).
    reflexivity.
Defined.

(** C10 on a null operation. *)
Lemma calculate_operation_not_string_witness :
  calculate 4300 plain_total
    (ok (PDict [("numbers", PList [PInt 1; PInt 2; PInt 3]); ("operation", PNone)])) [] =
    (ok (error_response "Unsupported operation. Use: sum, product, average" 400), []).
Proof.
  apply (calculate_operation_not_string 4300 plain_total
           [("numbers", PList [PInt 1; PInt 2; PInt 3]); ("operation", PNone)]
           [PInt 1; PInt 2; PInt 3] PNone []).
  - reflexivity.
  - discriminate.
  - reflexivity.
  - reflexivity.
  - discriminate.
Defined.

(** ** Further properties of the handler *)

(** *** Bodies that are not JSON objects *)

Lemma calculate_first_check (max_str_digits : Z) (float_total : float_sum) (v : value) (lg : log) :
  (forall d : list (string * value), v <> PDict d) ->
  calculate max_str_digits float_total (ok v) lg =
    if negb (truthy v) then (ok (error_response "Missing numbers array" 400), lg)
    else
      match contains v "numbers" with
      | inr false => (ok (error_response "Missing numbers array" 400), lg)
      | _ => (ok (error_response "Internal server error" 500), lg ++ [Error TypeError])
      end.
Proof.
  intros Hv.
  destruct (truthy v) eqn:Ht; cbn [negb];
    [| now apply calculate_missing_falsy].
  unfold calculate, try_except, bind, lift, ret, logger_error, ok.
  cbv beta iota. rewrite Ht. cbn [negb].
  destruct v as [| b | z | f | s | l | d]; cbn [contains ebind raise ok getitem];
    try reflexivity.
  - destruct (occurs "numbers" s); reflexivity.
  - destruct (existsb _ l); reflexivity.
  - now destruct (Hv d).
Qed.

Lemma arith_number (iop : Z -> Z -> Z) (fop : spec_float -> spec_float -> spec_float)
  (a b r : value) :
  arith iop fop a b = ok r -> is_number r = true.
Proof.
  unfold arith.
  destruct (as_num a) as [e | x]; [discriminate|].
  destruct (as_num b) as [e | y]; [discriminate|].
  cbn [ebind].
  destruct x as [i | f], y as [j | g]; cbn [to_float ebind ok];
    repeat match goal with
    | |- context [int_to_float ?z] => destruct (int_to_float z); cbn [ebind]
    end;
    try discriminate; intros H; injection H as <-; reflexivity.
Qed.

Lemma for_each_number (iop : Z -> Z -> Z) (fop : spec_float -> spec_float -> spec_float)
  (l : list value) :
  forall acc r : value,
    is_number acc = true ->
    for_each (arith iop fop) l acc = ok r ->
    is_number r = true.
Proof.
  induction l as [|x l IH]; intros acc r Hacc Hr.
  - cbn in Hr. now injection Hr as <-.
  - cbn [for_each] in Hr.
    destruct (arith iop fop acc x) as [e | acc'] eqn:Hstep; [discriminate|].
    cbn [ebind] in Hr. apply (IH acc' r); [|exact Hr].
    exact (arith_number iop fop acc x acc' Hstep).
Qed.

Lemma is_float_is_number (v : value) : is_float v = true -> is_number v = true.
Proof. now destruct v. Qed.

Lemma sum_number (float_total : float_sum) (l : list value) (r : value) :
  sum float_total l = ok r -> is_number r = true.
Proof.
  unfold sum. intros Hr.
  destruct (for_each add l (PInt 0)) as [e | r0] eqn:H0; [discriminate|].
  pose proof (for_each_number Z.add fadd l (PInt 0) r0 eq_refl H0) as Hn.
  destruct r0; try discriminate; now injection Hr as <-.
Qed.

(** *** Every answer of the handler *)

Lemma resolved_operation_lookup (d : list (string * value)) (op : value) :
  resolved_operation d = op ->
  op <> PStr "sum" ->
  lookup "operation" d = Some op.
Proof.
  unfold resolved_operation. destruct (lookup "operation" d).
  - now intros ->.
  - intros <- H. now destruct H.
Qed.

(** A valid request is refused for its operation, or it is answered with
    the outcome of one of the three reductions. *)
Lemma calculate_valid (max_str_digits : Z) (float_total : float_sum) (d : list (string * value))
  (l : list value) (lg : log) :
  lookup "numbers" d = Some (PList l) ->
  l <> [] ->
  forallb isinstance_int_float l = true ->
  (operation_supported d = false /\
   calculate max_str_digits float_total (ok (PDict d)) lg =
     (ok (error_response "Unsupported operation. Use: sum, product, average" 400), lg))
  \/ (exists (op : string) (c : Exc value),
        operation_supported d = true /\
        In op operations /\
        resolved_operation d = PStr op /\
        (forall r : value, c = ok r ->
           is_number r = true /\
           (existsb is_float l = true -> is_float r = true)) /\
        calculate max_str_digits float_total (ok (PDict d)) lg =
          reduction_outcome max_str_digits op l c lg).
Proof.
  intros Hn Hne Hl.
  assert (Hsup : forall s : string,
            resolved_operation d = PStr s ->
            operation_supported d =
              (String.eqb s "sum" || String.eqb s "product" || String.eqb s "average")).
  { intros s. unfold resolved_operation, operation_supported.
    destruct (lookup "operation" d); [intros -> | intros H; injection H as <-];
      reflexivity. }
  destruct (resolved_operation d) as [| | | | s | |] eqn:Ho.
  1-4, 6-7:
    left; split;
    [ apply resolved_operation_lookup in Ho; [|discriminate];
      unfold operation_supported; now rewrite Ho
    | apply calculate_unsupported with (l := l) (op := resolved_operation d);
      rewrite ?Ho; trivial;
      apply resolved_operation_lookup; [exact Ho | discriminate] ].
  rewrite (Hsup s eq_refl).
  destruct (String.eqb_spec s "sum") as [-> | H1].
  { right. exists "sum", (sum float_total l).
    split; [|split; [|split; [|split]]]; trivial.
    - now left.
    - intros r Hr. split.
      + now apply (sum_number float_total l r).
      + intros Hf. now apply (sum_float float_total l r).
    - now apply calculate_valid_sum. }
  destruct (String.eqb_spec s "product") as [-> | H2].
  { right. exists "product", (for_each mul l (PInt 1)).
    split; [|split; [|split; [|split]]]; trivial.
    - right. now left.
    - intros r Hr. split.
      + now apply (for_each_number Z.mul fmul l (PInt 1) r).
      + intros Hf. apply (for_each_float Z.mul fmul l (PInt 1) r Hr).
        now rewrite Hf.
    - now apply calculate_valid_product. }
  destruct (String.eqb_spec s "average") as [-> | H3].
  { right. exists "average", (ebind (sum float_total l) (fun t => truediv t (len l))).
    split; [|split; [|split; [|split]]]; trivial.
    - right. right. now left.
    - intros r Hr. destruct (sum float_total l) as [e | t]; [discriminate|].
      cbn [ebind] in Hr.
      pose proof (truediv_float t (len l) r Hr) as Hf.
      split; [now apply is_float_is_number | trivial].
    - now apply calculate_valid_average. }
  left. split; [reflexivity|].
  apply calculate_unsupported with (l := l) (op := PStr s); trivial;
    try (now apply String.eqb_neq).
  apply resolved_operation_lookup; [exact Ho|]. intros H. injection H as ->.
  now destruct H1.
Qed.

(** The handler answers in one of three ways: a refusal with the status
    400 and nothing logged, the error 500 with the exception logged, or
    the result of a reduction on a valid request with the calculation
    logged. *)
Lemma calculate_cases (max_str_digits : Z) (float_total : float_sum) (get_json : Exc value) (lg : log) :
  (exists msg : string,
     In msg validation_messages /\
     calculate max_str_digits float_total get_json lg = (ok (error_response msg 400), lg))
  \/ (exists e : exn,
        calculate max_str_digits float_total get_json lg =
          (ok (error_response "Internal server error" 500), lg ++ [Error e]))
  \/ (exists (d : list (string * value)) (l : list value) (op : string) (r : value),
        get_json = ok (PDict d) /\
        first_failure d = None /\
        lookup "numbers" d = Some (PList l) /\
        resolved_operation d = PStr op /\
        In op operations /\
        is_number r = true /\
        forallb (str_ok max_str_digits) [PList l; r] = true /\
        calculate max_str_digits float_total get_json lg =
          (ok (jsonify (PDict [("numbers", PList l); ("operation", PStr op);
                               ("result", r)])),
           lg ++ [Info (PStr op) (PList l) r])).
Proof.
  destruct get_json as [e | v].
  { right. left. exists e. reflexivity. }
  assert (Hnd : (forall d : list (string * value), v <> PDict d) ->
    (exists msg : string,
       In msg validation_messages /\
       calculate max_str_digits float_total (inr v) lg = (ok (error_response msg 400), lg))
    \/ (exists e : exn,
          calculate max_str_digits float_total (inr v) lg =
            (ok (error_response "Internal server error" 500), lg ++ [Error e]))).
  { intros Hv. change (inr v) with (@ok value v).
    rewrite (calculate_first_check max_str_digits float_total v lg Hv).
    destruct (negb (truthy v)).
    - left. exists "Missing numbers array". split; [now left | reflexivity].
    - destruct (contains v "numbers") as [e | [|]].
      + right. now exists TypeError.
      + right. now exists TypeError.
      + left. exists "Missing numbers array". split; [now left | reflexivity]. }
  destruct v as [| b | z | f | s | l0 | d];
    try (destruct Hnd as [H | H]; [discriminate | now left | right; now left]).
  change (inr (PDict d)) with (@ok value (PDict d)).
  destruct (lookup "numbers" d) as [v|] eqn:Hn.
  2: { left. exists "Missing numbers array". split; [now left|].
       now apply calculate_missing_object. }
  assert (Hbad : isinstance_list v = false \/ v = PList [] ->
    exists msg : string,
      In msg validation_messages /\
      calculate max_str_digits float_total (ok (PDict d)) lg = (ok (error_response msg 400), lg)).
  { intros Hv. exists "Numbers must be a non-empty array".
    split; [right; now left|]. now apply calculate_numbers_not_list with (v := v). }
  destruct v as [| | | | | l |]; try (left; apply Hbad; now left).
  destruct l as [|x l]; [left; apply Hbad; now right|]. clear Hbad.
  destruct (forallb isinstance_int_float (x :: l)) eqn:Hl.
  2: { left. exists "All elements must be numbers".
       split; [right; right; now left|].
       apply calculate_not_numeric with (l := x :: l); trivial. discriminate. }
  assert (Hne : x :: l <> []) by discriminate.
  destruct (calculate_valid max_str_digits float_total d (x :: l) lg Hn Hne Hl)
    as [[_ H] | (op & c & Hsup & Hop & Hr & Hc & H)].
  { left. exists "Unsupported operation. Use: sum, product, average".
    split; [right; right; right; now left | exact H]. }
  rewrite H. unfold reduction_outcome.
  destruct c as [e | r]; [right; left; now exists e|].
  destruct (forallb (str_ok max_str_digits) [PStr op; PList (x :: l); r]) eqn:Hs;
    [|right; left; now exists ValueError].
  right. right. exists d, (x :: l), op, r. repeat split; trivial.
  - unfold first_failure, numbers_present, numbers_nonempty_sequence,
      elements_numeric. rewrite Hn, Hl, Hsup. reflexivity.
  - now apply (Hc r).
Qed.

Lemma int_like_accepted (l : list value) :
  forallb int_like l = true -> forallb isinstance_int_float l = true.
Proof.
  induction l as [|x l IH]; [reflexivity|].
  cbn [forallb]. intros H. apply andb_prop in H as [Hx Hl].
  rewrite (IH Hl). now destruct x.
Qed.

Lemma forallb_permutation {A : Type} (p : A -> bool) (l l' : list A) :
  Permutation l l' -> forallb p l = forallb p l'.
Proof.
  induction 1 as [| x l l' _ IH | x y l | l l' l'' _ IH1 _ IH2]; cbn [forallb].
  - reflexivity.
  - now rewrite IH.
  - now destruct (p x), (p y).
  - now rewrite IH1.
Qed.

Lemma Zsum_permutation (l l' : list value) : Permutation l l' -> Zsum l = Zsum l'.
Proof.
  unfold Zsum.
  induction 1 as [| x l l' _ IH | x y l | l l' l'' _ IH1 _ IH2]; cbn [fold_right];
    lia.
Qed.

Lemma Zprod_permutation (l l' : list value) : Permutation l l' -> Zprod l = Zprod l'.
Proof.
  unfold Zprod.
  induction 1 as [| x l l' _ IH | x y l | l l' l'' _ IH1 _ IH2]; cbn [fold_right];
    [reflexivity | now rewrite IH | ring | now rewrite IH1].
Qed.

(** The outcome of a reduction that gives the same value on two
    orderings of the same items. *)
Lemma reduction_outcome_permutation (max_str_digits : Z) (op : string)
  (l l' : list value) (c : Exc value) (lg : log) :
  Permutation l l' ->
  result_of (reduction_outcome max_str_digits op l c lg) =
    result_of (reduction_outcome max_str_digits op l' c lg)
  /\ status_of (reduction_outcome max_str_digits op l c lg) =
    status_of (reduction_outcome max_str_digits op l' c lg).
Proof.
  intros Hp. unfold reduction_outcome.
  destruct c as [e | r]; [split; reflexivity|].
  replace (forallb (str_ok max_str_digits) [PStr op; PList l; r])
    with (forallb (str_ok max_str_digits) l && (str_ok max_str_digits r && true))
    by reflexivity.
  replace (forallb (str_ok max_str_digits) [PStr op; PList l'; r])
    with (forallb (str_ok max_str_digits) l' && (str_ok max_str_digits r && true))
    by reflexivity.
  rewrite (forallb_permutation (str_ok max_str_digits) l l' Hp).
  destruct (forallb (str_ok max_str_digits) l' && _); split; reflexivity.
Qed.

(** ** More properties, by source function *)

Section Extras.

Variable max_str_digits : Z.
Variable float_total : float_sum.

(** X1: whatever [request.get_json()] gives, the handler returns a
    response, and that response has the status 200, or the status 400 with
    one of the four validation messages as its only field, or the status
    500 with the message "Internal server error" as its only field. *)
Theorem calculate_status_and_message (get_json : Exc value) (lg : log) :
  exists (r : response) (lg' : log),
    calculate max_str_digits float_total get_json lg = (ok r, lg')
    /\ (status r = 200
        \/ (status r = 400 /\
            exists msg : string,
              In msg validation_messages /\ payload r = PDict [("error", PStr msg)])
        \/ (status r = 500 /\
            payload r = PDict [("error", PStr "Internal server error")])).
Proof.
  destruct (calculate_cases max_str_digits float_total get_json lg)
    as [(msg & Hin & H) | [(e & H) | (d & l & op & r & _ & _ & _ & _ & _ & _ & _ & H)]];
    rewrite H; eexists; eexists; (split; [reflexivity|]).
  - right. left. split; [reflexivity|]. now exists msg.
  - right. right. split; reflexivity.
  - left. reflexivity.
Qed.

(** X2: what the handler logs follows the status of its answer: nothing
    for a 400, one error record for a 500, and for a 200 one record that
    carries the very numbers, operation and result of the payload.  The
    earlier records of the log are kept. *)
Theorem calculate_log_by_status (get_json : Exc value) (lg lg' : log) (r : response) :
  calculate max_str_digits float_total get_json lg = (ok r, lg') ->
  (status r = 400 -> lg' = lg)
  /\ (status r = 500 -> exists e : exn, lg' = lg ++ [Error e])
  /\ (status r = 200 ->
      exists operation numbers result : value,
        lg' = lg ++ [Info operation numbers result] /\
        payload r = PDict [("numbers", numbers); ("operation", operation);
                           ("result", result)]).
Proof.
  intros Heq.
  destruct (calculate_cases max_str_digits float_total get_json lg)
    as [(msg & Hin & H) | [(e & H) | (d & l & op & res & _ & _ & _ & _ & _ & _ & _ & H)]];
    rewrite H in Heq; injection Heq as <- <-; cbn [status error_response jsonify payload];
    (split; [|split]); intros Hs; try discriminate Hs.
  - reflexivity.
  - now exists e.
  - exists (PStr op), (PList l), res. split; reflexivity.
Qed.

(** X3: the status 200 is given only to a JSON object that passes the
    four checks: its numbers are a list, its operation resolves to one of
    "sum", "product" and "average", and the payload holds these numbers,
    this operation and a result that is an integer or a float. *)
Theorem calculate_success_only_if_valid (get_json : Exc value) (lg lg' : log)
  (r : response) :
  calculate max_str_digits float_total get_json lg = (ok r, lg') ->
  status r = 200 ->
  exists (d : list (string * value)) (l : list value) (op : string) (res : value),
    get_json = ok (PDict d)
    /\ first_failure d = None
    /\ lookup "numbers" d = Some (PList l)
    /\ resolved_operation d = PStr op
    /\ In op operations
    /\ is_number res = true
    /\ payload r = PDict [("numbers", PList l); ("operation", PStr op); ("result", res)].
Proof.
  intros Heq Hs.
  destruct (calculate_cases max_str_digits float_total get_json lg)
    as [(msg & Hin & H) | [(e & H) | (d & l & op & res & H1 & H2 & H3 & H4 & H5 & H6 & _ & H)]];
    rewrite H in Heq; injection Heq as <- <-; try discriminate Hs.
  exists d, l, op, res. repeat split; trivial.
Qed.

(** X4: a JSON object that passes the four checks is never answered with
    the status 400: the answer is 200, or 500 when the reduction raises or
    its result cannot be printed. *)
Theorem calculate_valid_never_400 (d : list (string * value)) (lg : log) :
  first_failure d = None ->
  status_of (calculate max_str_digits float_total (ok (PDict d)) lg) = Some 200
  \/ status_of (calculate max_str_digits float_total (ok (PDict d)) lg) = Some 500.
Proof.
  unfold first_failure, numbers_present, numbers_nonempty_sequence, elements_numeric.
  destruct (lookup "numbers" d) as [v|] eqn:Hn; [|discriminate].
  destruct v as [| | | | | l |]; try discriminate.
  destruct l as [|x l]; [discriminate|]. cbn [negb].
  destruct (forallb isinstance_int_float (x :: l)) eqn:Hl; [|discriminate]. cbn [negb].
  destruct (operation_supported d) eqn:Hsup; [|discriminate]. intros _.
  assert (Hne : x :: l <> []) by discriminate.
  destruct (calculate_valid max_str_digits float_total d (x :: l) lg Hn Hne Hl)
    as [[Hf _] | (op & c & _ & _ & _ & _ & H)]; [congruence|].
  rewrite H. unfold reduction_outcome.
  destruct c as [e | r]; [now right|].
  destruct (forallb (str_ok _) _); [now left | now right].
Qed.

(** X5: the sum of integers (booleans counting as 0 and 1) never fails
    in the arithmetic: the request is answered 200 with the exact integer
    sum as soon as the integers of the request and the sum can be
    printed. *)
Theorem calculate_sum_integers (d : list (string * value)) (l : list value) (lg : log) :
  lookup "numbers" d = Some (PList l) ->
  l <> [] ->
  forallb int_like l = true ->
  resolved_operation d = PStr "sum" ->
  forallb (str_ok max_str_digits) [PList l; PInt (Zsum l)] = true ->
  calculate max_str_digits float_total (ok (PDict d)) lg =
    (ok (jsonify (PDict [("numbers", PList l); ("operation", PStr "sum");
                         ("result", PInt (Zsum l))])),
     lg ++ [Info (PStr "sum") (PList l) (PInt (Zsum l))]).
Proof.
  intros Hn Hne Hi Ho Hs.
  rewrite (calculate_valid_sum max_str_digits float_total d l lg Hn Hne (int_like_accepted l Hi) Ho).
  rewrite (sum_ints float_total l Hi). now apply reduction_outcome_ok.
Qed.

(** X6: the product of integers never fails in the arithmetic: the
    request is answered 200 with the exact integer product as soon as the
    integers of the request and the product can be printed. *)
Theorem calculate_product_integers (d : list (string * value)) (l : list value)
  (lg : log) :
  lookup "numbers" d = Some (PList l) ->
  l <> [] ->
  forallb int_like l = true ->
  resolved_operation d = PStr "product" ->
  forallb (str_ok max_str_digits) [PList l; PInt (Zprod l)] = true ->
  calculate max_str_digits float_total (ok (PDict d)) lg =
    (ok (jsonify (PDict [("numbers", PList l); ("operation", PStr "product");
                         ("result", PInt (Zprod l))])),
     lg ++ [Info (PStr "product") (PList l) (PInt (Zprod l))]).
Proof.
  intros Hn Hne Hi Ho Hs.
  rewrite (calculate_valid_product max_str_digits float_total d l lg Hn Hne
             (int_like_accepted l Hi) Ho).
  rewrite (product_ints l Hi). now apply reduction_outcome_ok.
Qed.

(** X7: the handler reads the fields "numbers" and "operation" of the
    request and nothing else: two JSON objects that agree on these two
    fields get the same answer and the same log. *)
Theorem calculate_ignores_other_fields (d d' : list (string * value)) (lg : log) :
  lookup "numbers" d = lookup "numbers" d' ->
  lookup "operation" d = lookup "operation" d' ->
  calculate max_str_digits float_total (ok (PDict d)) lg =
  calculate max_str_digits float_total (ok (PDict d')) lg.
Proof.
  intros Hn Ho.
  destruct (lookup "numbers" d') as [v|] eqn:Hn'.
  - destruct d as [|kv d]; [discriminate|].
    destruct d' as [|kv' d']; [discriminate|].
    run_handler. rewrite Hn, Hn', Ho. reflexivity.
  - rewrite (calculate_missing_object max_str_digits float_total d lg Hn).
    now rewrite (calculate_missing_object max_str_digits float_total d' lg Hn').
Qed.

(** X8: for integers the order of the numbers does not matter: two
    requests whose lists of integers are permutations of each other get the
    same status and the same result, for each of the three operations. *)
Theorem calculate_integer_order_irrelevant (l l' : list value) (op : string)
  (lg : log) :
  Permutation l l' ->
  forallb int_like l = true ->
  In op operations ->
  result_of (calculate max_str_digits float_total (request l op) lg) =
    result_of (calculate max_str_digits float_total (request l' op) lg)
  /\ status_of (calculate max_str_digits float_total (request l op) lg) =
    status_of (calculate max_str_digits float_total (request l' op) lg).
Proof.
  intros Hp Hi Hop.
  assert (Hi' : forallb int_like l' = true)
    by now rewrite <- (forallb_permutation int_like l l' Hp).
  destruct l as [|x l].
  { apply Permutation_nil in Hp. subst l'. split; reflexivity. }
  destruct l' as [|x' l'].
  { apply Permutation_sym, Permutation_nil in Hp. discriminate. }
  unfold request.
  destruct Hop as [<- | [<- | [<- | []]]].
  - rewrite (calculate_valid_sum max_str_digits float_total
               [("numbers", PList (x :: l)); ("operation", PStr "sum")] (x :: l) lg eq_refl
               ltac:(discriminate) (int_like_accepted _ Hi) eq_refl).
    rewrite (calculate_valid_sum max_str_digits float_total
               [("numbers", PList (x' :: l')); ("operation", PStr "sum")] (x' :: l') lg eq_refl
               ltac:(discriminate) (int_like_accepted _ Hi') eq_refl).
    rewrite (sum_ints float_total _ Hi), (sum_ints float_total _ Hi'), (Zsum_permutation _ _ Hp).
    now apply reduction_outcome_permutation.
  - rewrite (calculate_valid_product max_str_digits float_total
               [("numbers", PList (x :: l)); ("operation", PStr "product")] (x :: l) lg eq_refl
               ltac:(discriminate) (int_like_accepted _ Hi) eq_refl).
    rewrite (calculate_valid_product max_str_digits float_total
               [("numbers", PList (x' :: l')); ("operation", PStr "product")] (x' :: l') lg eq_refl
               ltac:(discriminate) (int_like_accepted _ Hi') eq_refl).
    rewrite (product_ints _ Hi), (product_ints _ Hi'), (Zprod_permutation _ _ Hp).
    now apply reduction_outcome_permutation.
  - rewrite (calculate_valid_average max_str_digits float_total
               [("numbers", PList (x :: l)); ("operation", PStr "average")] (x :: l) lg eq_refl
               ltac:(discriminate) (int_like_accepted _ Hi) eq_refl).
    rewrite (calculate_valid_average max_str_digits float_total
               [("numbers", PList (x' :: l')); ("operation", PStr "average")] (x' :: l') lg eq_refl
               ltac:(discriminate) (int_like_accepted _ Hi') eq_refl).
    rewrite (sum_ints float_total _ Hi), (sum_ints float_total _ Hi'), (Zsum_permutation _ _ Hp).
    unfold len. rewrite (Permutation_length Hp).
    now apply reduction_outcome_permutation.
Qed.

(** X9: a body that is not a JSON object never reaches the second
    check.  It is answered 400 "Missing numbers array" when it is falsy
    (null, false, 0, 0.0, an empty string or list), or a list without the
    item "numbers", or a string in which "numbers" does not occur; every
    other one is answered 500, with a [TypeError] in the log. *)
Theorem calculate_non_object_answer (v : value) (lg : log) :
  (forall d : list (string * value), v <> PDict d) ->
  (truthy v = false \/ contains v "numbers" = ok false ->
   calculate max_str_digits float_total (ok v) lg =
     (ok (error_response "Missing numbers array" 400), lg))
  /\ (truthy v = true -> contains v "numbers" <> ok false ->
      calculate max_str_digits float_total (ok v) lg =
        (ok (error_response "Internal server error" 500), lg ++ [Error TypeError])).
Proof.
  intros Hv. rewrite (calculate_first_check max_str_digits float_total v lg Hv). split.
  - intros [Ht | Hc].
    + now rewrite Ht.
    + rewrite Hc. now destruct (negb (truthy v)).
  - intros Ht Hc. rewrite Ht. cbn [negb].
    destruct (contains v "numbers") as [e | [|]]; try reflexivity.
    now destruct Hc.
Qed.

(** X10: when the handler answers 500, its response is the one of the
    application's handler of internal errors: a caller cannot tell an
    exception caught in [calculate] from a fault caught by the framework,
    whatever the exception was. *)
Theorem calculate_500_is_internal_error (get_json : Exc value) (lg lg' : log)
  (r : response) (error : exn) :
  calculate max_str_digits float_total get_json lg = (ok r, lg') ->
  status r = 500 ->
  r = internal_error error.
Proof.
  intros Heq Hs.
  destruct (calculate_cases max_str_digits float_total get_json lg)
    as [(msg & Hin & H) | [(e & H) | (d & l & op & res & _ & _ & _ & _ & _ & _ & _ & H)]];
    rewrite H in Heq; injection Heq as <- <-; try discriminate Hs.
  reflexivity.
Qed.

(** X12: whenever a request whose numbers hold a float is answered 200,
    the result is a float, whatever the operation. *)
Theorem calculate_float_result (d : list (string * value)) (l : list value) (lg : log) :
  lookup "numbers" d = Some (PList l) ->
  existsb is_float l = true ->
  status_of (calculate max_str_digits float_total (ok (PDict d)) lg) = Some 200 ->
  exists f : spec_float,
    result_of (calculate max_str_digits float_total (ok (PDict d)) lg) = Some (PFloat f).
Proof.
  intros Hn Hf.
  assert (Hne : l <> []) by (intros ->; discriminate).
  destruct (forallb isinstance_int_float l) eqn:Hl.
  2: { rewrite (calculate_not_numeric max_str_digits float_total d l lg Hn Hl Hne). discriminate. }
  destruct (calculate_valid max_str_digits float_total d l lg Hn Hne Hl)
    as [[_ H] | (op & c & _ & _ & _ & Hc & H)]; rewrite H; [discriminate|].
  unfold reduction_outcome.
  destruct c as [e | r]; [discriminate|].
  destruct (forallb (str_ok _) _); [|discriminate]. intros _.
  destruct (Hc r eq_refl) as [_ Hfr]. specialize (Hfr Hf).
  destruct r; try discriminate. now eexists.
Qed.

End Extras.

(** ** The further properties at concrete requests *)

(** X2 on the sum of 1, 2 and 3. *)
Lemma calculate_log_by_status_witness :
  let r := jsonify (PDict [("numbers", PList [PInt 1; PInt 2; PInt 3]);
                           ("operation", PStr "sum"); ("result", PInt 6)]) in
  let lg' := [Info (PStr "sum") (PList [PInt 1; PInt 2; PInt 3]) (PInt 6)] in
  (status r = 400 -> lg' = [])
  /\ (status r = 500 -> exists e : exn, lg' = [] ++ [Error e])
  /\ (status r = 200 ->
      exists operation numbers result : value,
        lg' = [] ++ [Info operation numbers result] /\
        payload r = PDict [("numbers", numbers); ("operation", operation);
                           ("result", result)]).
Proof.
  intros r lg'.
  apply (calculate_log_by_status 4300 plain_total (request [PInt 1; PInt 2; PInt 3] "sum") [] lg' r).
  vm_compute. reflexivity.
Defined.

(** X3 on the sum of 1, 2 and 3. *)
Lemma calculate_success_only_if_valid_witness :
  let r := jsonify (PDict [("numbers", PList [PInt 1; PInt 2; PInt 3]);
                           ("operation", PStr "sum"); ("result", PInt 6)]) in
  exists (d : list (string * value)) (l : list value) (op : string) (res : value),
    request [PInt 1; PInt 2; PInt 3] "sum" = ok (PDict d)
    /\ first_failure d = None
    /\ lookup "numbers" d = Some (PList l)
    /\ resolved_operation d = PStr op
    /\ In op operations
    /\ is_number res = true
    /\ payload r = PDict [("numbers", PList l); ("operation", PStr op); ("result", res)].
Proof.
  intros r.
  apply (calculate_success_only_if_valid 4300 plain_total
           (request [PInt 1; PInt 2; PInt 3] "sum") []
           [Info (PStr "sum") (PList [PInt 1; PInt 2; PInt 3]) (PInt 6)] r).
  - vm_compute. reflexivity.
  - reflexivity.
Defined.

(** X4 on the numbers 1, 2 and 3 without an operation. *)
Lemma calculate_valid_never_400_witness :
  let d := [("numbers", PList [PInt 1; PInt 2; PInt 3])] in
  status_of (calculate 4300 plain_total (ok (PDict d)) []) = Some 200
  \/ status_of (calculate 4300 plain_total (ok (PDict d)) []) = Some 500.
Proof.
  intros d. apply (calculate_valid_never_400 4300 plain_total d []). reflexivity.
Defined.

(** X5 on the integers 1 and 3 and the boolean true. *)
Lemma calculate_sum_integers_witness :
  let l := [PInt 1; PBool true; PInt 3] in
  calculate 4300 plain_total (request l "sum") [] =
    (ok (jsonify (PDict [("numbers", PList l); ("operation", PStr "sum");
                         ("result", PInt (Zsum l))])),
     [] ++ [Info (PStr "sum") (PList l) (PInt (Zsum l))]).
Proof.
  intros l.
  apply (calculate_sum_integers 4300 plain_total
           [("numbers", PList l); ("operation", PStr "sum")] l []).
  - reflexivity.
  - discriminate.
  - reflexivity.
  - reflexivity.
  - vm_compute. reflexivity.
Defined.

(** X6 on the integers 2, 3 and 4. *)
Lemma calculate_product_integers_witness :
  let l := [PInt 2; PInt 3; PInt 4] in
  calculate 4300 plain_total (request l "product") [] =
    (ok (jsonify (PDict [("numbers", PList l); ("operation", PStr "product");
                         ("result", PInt (Zprod l))])),
     [] ++ [Info (PStr "product") (PList l) (PInt (Zprod l))]).
Proof.
  intros l.
  apply (calculate_product_integers 4300 plain_total
           [("numbers", PList l); ("operation", PStr "product")] l []).
  - reflexivity.
  - discriminate.
  - reflexivity.
  - reflexivity.
  - vm_compute. reflexivity.
Defined.

(** X7 on a request with a field the handler does not know. *)
Lemma calculate_ignores_other_fields_witness :
  calculate 4300 plain_total
    (ok (PDict [("comment", PStr "hello"); ("numbers", PList [PInt 1; PInt 2])])) [] =
  calculate 4300 plain_total (ok (PDict [("numbers", PList [PInt 1; PInt 2])])) [].
Proof.
  apply (calculate_ignores_other_fields 4300 plain_total
           [("comment", PStr "hello"); ("numbers", PList [PInt 1; PInt 2])]
           [("numbers", PList [PInt 1; PInt 2])] []).
  - reflexivity.
  - reflexivity.
Defined.

(** X8 on the average of the lists [1, 2, 4] and [2, 1, 4]. *)
Lemma calculate_integer_order_irrelevant_witness :
  let l := [PInt 1; PInt 2; PInt 4] in
  let l' := [PInt 2; PInt 1; PInt 4] in
  result_of (calculate 4300 plain_total (request l "average") []) =
    result_of (calculate 4300 plain_total (request l' "average") [])
  /\ status_of (calculate 4300 plain_total (request l "average") []) =
    status_of (calculate 4300 plain_total (request l' "average") []).
Proof.
  intros l l'.
  apply (calculate_integer_order_irrelevant 4300 plain_total l l' "average" []).
  - exact (perm_swap (PInt 2) (PInt 1) [PInt 4]).
  - reflexivity.
  - right. right. left. reflexivity.
Defined.

(** X9 on a body that is a string in which "numbers" occurs. *)
Lemma calculate_non_object_answer_witness :
  let v := PStr "my numbers" in
  (truthy v = false \/ contains v "numbers" = ok false ->
   calculate 4300 plain_total (ok v) [] = (ok (error_response "Missing numbers array" 400), []))
  /\ (truthy v = true -> contains v "numbers" <> ok false ->
      calculate 4300 plain_total (ok v) [] =
        (ok (error_response "Internal server error" 500), [] ++ [Error TypeError])).
Proof.
  intros v.
  apply (calculate_non_object_answer 4300 plain_total v []).
  intros d. discriminate.
Defined.

(** X10 on a request whose body the framework refuses. *)
Lemma calculate_500_is_internal_error_witness :
  error_response "Internal server error" 500 = internal_error HTTPException.
Proof.
  apply (calculate_500_is_internal_error 4300 plain_total (raise HTTPException) []
           [Error HTTPException] (error_response "Internal server error" 500)
           HTTPException).
  - reflexivity.
  - reflexivity.
Defined.

(** X12 on the product of the integer 2 and the float 1.5. *)
Lemma calculate_float_result_witness :
  let l := [PInt 2; PFloat (float_lit 3 (-1))] in
  exists f : spec_float,
    result_of (calculate 4300 plain_total (request l "product") []) = Some (PFloat f).
Proof.
  intros l.
  apply (calculate_float_result 4300 plain_total
           [("numbers", PList l); ("operation", PStr "product")] l []).
  - reflexivity.
  - reflexivity.
  - vm_compute. reflexivity.
Defined.
